(** * debug_gifts.py: one GET request, pretty-printed or reported

    The script under verification is

<<
    url = "https://channelsseller.site/api/user/udbcwicnovewwobvo/nfts"
    headers = {"X-Admin-Password": "nova_admin_2024"}

    try:
        response = requests.get(url, headers=headers, timeout=10)
        print(json.dumps(response.json(), indent=2))
    except Exception as e:
        print(e)
>>

    It is embedded as a program in a state-and-exception monad.  The HTTP
    client, the standard output and the limits of the interpreter are
    supplied by a [World]; [json.dumps] is modelled after the pure-Python
    encoder of the standard [json] package, which is the one selected when
    [indent] is given. *)

From Stdlib Require Import String Ascii DecimalString DecimalPos.
From Stdlib Require Import ZArith NArith Bool Lia List.
Import ListNotations.
Open Scope Z_scope.

(** ** Python strings *)

(** A Python [str] is a sequence of Unicode code points. *)
Definition pystr := list N.

Fixpoint u (s : string) : pystr :=
  match s with
  | EmptyString => []
  | String c s' => N_of_ascii c :: u s'
  end.

Definition nl : pystr := [10%N].

(** [sep.join(parts)] *)
Fixpoint join (sep : pystr) (parts : list pystr) : pystr :=
  match parts with
  | [] => []
  | [p] => p
  | p :: rest => p ++ sep ++ join sep rest
  end.

(** ** Exceptions *)

Module Exc.

(** The exception classes that the script can meet: the roots of the
    built-in hierarchy, the built-in errors raised by the [json] package
    and by file objects, and the classes of [requests.exceptions]
    ([ConnectionError] is the one of [requests], [builtin_ConnectionError]
    the built-in one). *)
Inductive class :=
| BaseException
| SystemExit
| KeyboardInterrupt
| GeneratorExit
| Exception
| OSError
| builtin_ConnectionError
| BrokenPipeError
| ValueError
| UnicodeEncodeError
| TypeError
| RuntimeError
| RecursionError
| json_JSONDecodeError
| RequestException
| InvalidJSONError
| requests_JSONDecodeError
| HTTPError
| ConnectionError
| SSLError
| Timeout
| ConnectTimeout
| ReadTimeout.

Definition class_eqb (a b : class) : bool :=
  match a, b with
  | BaseException, BaseException | SystemExit, SystemExit
  | KeyboardInterrupt, KeyboardInterrupt | GeneratorExit, GeneratorExit
  | Exception, Exception | OSError, OSError
  | builtin_ConnectionError, builtin_ConnectionError
  | BrokenPipeError, BrokenPipeError | ValueError, ValueError
  | UnicodeEncodeError, UnicodeEncodeError | TypeError, TypeError
  | RuntimeError, RuntimeError | RecursionError, RecursionError
  | json_JSONDecodeError, json_JSONDecodeError
  | RequestException, RequestException
  | InvalidJSONError, InvalidJSONError
  | requests_JSONDecodeError, requests_JSONDecodeError
  | HTTPError, HTTPError | ConnectionError, ConnectionError
  | SSLError, SSLError | Timeout, Timeout
  | ConnectTimeout, ConnectTimeout | ReadTimeout, ReadTimeout => true
  | _, _ => false
  end.

(** The direct bases of each class, as its [class] statement lists them. *)
Definition bases (c : class) : list class :=
  match c with
  | BaseException => []
  | SystemExit | KeyboardInterrupt | GeneratorExit | Exception =>
      [BaseException]
  | OSError | ValueError | TypeError | RuntimeError => [Exception]
  | builtin_ConnectionError => [OSError]
  | BrokenPipeError => [builtin_ConnectionError]
  | UnicodeEncodeError => [ValueError]
  | RecursionError => [RuntimeError]
  | json_JSONDecodeError => [ValueError]
  | RequestException => [OSError]
  | InvalidJSONError | HTTPError | ConnectionError | Timeout =>
      [RequestException]
  | requests_JSONDecodeError => [InvalidJSONError; json_JSONDecodeError]
  | SSLError => [ConnectionError]
  | ConnectTimeout => [ConnectionError; Timeout]
  | ReadTimeout => [Timeout]
  end.

(** The method resolution order [c.__mro__] (without [object]). *)
Definition mro (c : class) : list class :=
  match c with
  | BaseException => [BaseException]
  | SystemExit => [SystemExit; BaseException]
  | KeyboardInterrupt => [KeyboardInterrupt; BaseException]
  | GeneratorExit => [GeneratorExit; BaseException]
  | Exception => [Exception; BaseException]
  | OSError => [OSError; Exception; BaseException]
  | builtin_ConnectionError =>
      [builtin_ConnectionError; OSError; Exception; BaseException]
  | BrokenPipeError =>
      [BrokenPipeError; builtin_ConnectionError; OSError; Exception;
       BaseException]
  | ValueError => [ValueError; Exception; BaseException]
  | UnicodeEncodeError =>
      [UnicodeEncodeError; ValueError; Exception; BaseException]
  | TypeError => [TypeError; Exception; BaseException]
  | RuntimeError => [RuntimeError; Exception; BaseException]
  | RecursionError => [RecursionError; RuntimeError; Exception; BaseException]
  | json_JSONDecodeError =>
      [json_JSONDecodeError; ValueError; Exception; BaseException]
  | RequestException => [RequestException; OSError; Exception; BaseException]
  | InvalidJSONError =>
      [InvalidJSONError; RequestException; OSError; Exception; BaseException]
  | requests_JSONDecodeError =>
      [requests_JSONDecodeError; InvalidJSONError; RequestException; OSError;
       json_JSONDecodeError; ValueError; Exception; BaseException]
  | HTTPError =>
      [HTTPError; RequestException; OSError; Exception; BaseException]
  | ConnectionError =>
      [ConnectionError; RequestException; OSError; Exception; BaseException]
  | SSLError =>
      [SSLError; ConnectionError; RequestException; OSError; Exception;
       BaseException]
  | Timeout =>
      [Timeout; RequestException; OSError; Exception; BaseException]
  | ConnectTimeout =>
      [ConnectTimeout; ConnectionError; Timeout; RequestException; OSError;
       Exception; BaseException]
  | ReadTimeout =>
      [ReadTimeout; Timeout; RequestException; OSError; Exception;
       BaseException]
  end.

(** [issubclass(c, d)] *)
Definition issubclass (c d : class) : bool := existsb (class_eqb d) (mro c).

(** A raised exception: its class and the text that [str(e)] returns. *)
Record t := Build { cls : class; str : pystr }.

(** [isinstance(e, d)], the test an [except d] clause performs. *)
Definition isinstance (e : t) (d : class) : bool := issubclass (cls e) d.

End Exc.

(** ** Computations that may raise *)

Inductive Result (A : Type) : Type :=
| Ok (a : A)
| Raise (e : Exc.t).
Arguments Ok {A} a.
Arguments Raise {A} e.

Declare Scope result_scope.
Delimit Scope result_scope with result.
Notation "x <- c ;; k" :=
  (match c with Ok x => k | Raise e => Raise e end)
  (at level 61, c at next level, right associativity) : result_scope.

(** ** Python values *)

(** A float is kept as what [float.__repr__] prints for it; no arithmetic is
    ever done on one by the script. *)
Inductive pyfloat :=
| FNaN
| FInf
| FNegInf
| FFinite (repr : pystr).

#[local] Unset Elimination Schemes.

(** The values [response.json()] can hand to [json.dumps].  A [dict] keeps
    its items in insertion order; its keys are [str], as the JSON decoder
    produces them.  [PyObject cls] stands for an instance of any class the
    encoder does not know (a set, a bytes object, ...). *)
Inductive pyvalue :=
| PyNone
| PyBool (b : bool)
| PyInt (z : Z)
| PyFloat (f : pyfloat)
| PyStr (s : pystr)
| PyList (lst : list pyvalue)
| PyDict (dct : list (pystr * pyvalue))
| PyObject (cls : pystr).
#[local] Set Elimination Schemes.

(** ** The interpreter's limits *)

(** Two settings of the interpreter that the encoder runs into.
    [int_max_str_digits] is [sys.get_int_max_str_digits()]: the longest
    decimal text an [int] may be converted to (4300 by default; 0 lifts the
    limit, and no other value below 640 can be set).  [max_nesting] is the
    number of containers, one inside the other, that the recursion limit
    lets the encoder enter: [sys.getrecursionlimit()] less the frames
    already on the stack when the encoder starts (1000 by default, which
    leaves about 995). *)
Record Interpreter := {
  int_max_str_digits : nat;
  max_nesting : nat
}.

(** ** json.dumps(obj, indent=2) *)

Module json.

Definition quote : pystr := [34%N].

Definition hexdigit (d : N) : N :=
  (if d <? 10 then 48 + d else 87 + d)%N.

(** ['{0:04x}'.format(n)] for [n < 0x10000] *)
Definition hex4 (n : N) : pystr :=
  [hexdigit (N.shiftr n 12 mod 16); hexdigit (N.shiftr n 8 mod 16);
   hexdigit (N.shiftr n 4 mod 16); hexdigit (n mod 16)]%N.

Definition backslash_u (n : N) : pystr := u "\u" ++ hex4 n.

(** The [replace] callback of [py_encode_basestring_ascii], applied to the
    characters that [ESCAPE_ASCII] matches: the quote, the backslash and
    everything outside [' '..'~']. *)
Definition escape_char (c : N) : pystr :=
  if (c =? 34)%N then [92; 34]%N else
  if (c =? 92)%N then u "\\" else
  if (c =? 10)%N then u "\n" else
  if (c =? 13)%N then u "\r" else
  if (c =? 9)%N then u "\t" else
  if (c =? 12)%N then u "\f" else
  if (c =? 8)%N then u "\b" else
  if ((32 <=? c) && (c <=? 126))%N then [c] else
  if (c <? 65536)%N then backslash_u c else
    let n := (c - 65536)%N in
    let s1 := N.lor 55296 (N.land (N.shiftr n 10) 1023) in
    let s2 := N.lor 56320 (N.land n 1023) in
    backslash_u s1 ++ backslash_u s2.

Definition encode_basestring_ascii (s : pystr) : pystr :=
  quote ++ flat_map escape_char s ++ quote.

(** The decimal numeral of an [int], and the number of its digits. *)
Definition decimal (z : Z) : pystr := u (NilZero.string_of_int (Z.to_int z)).

Definition ndigits (z : Z) : nat :=
  if z <? 0 then pred (List.length (decimal z)) else List.length (decimal z).

Definition digits_error (limit : nat) : Exc.t :=
  Exc.Build Exc.ValueError
    (u "Exceeds the limit ("
     ++ u (NilZero.string_of_uint (Nat.to_uint limit))
     ++ u " digits) for integer string conversion; use sys.set_int_max_str_digits() to increase the limit").

Definition recursion_error : Exc.t :=
  Exc.Build Exc.RecursionError (u "maximum recursion depth exceeded").

(** [floatstr] with [allow_nan=True] *)
Definition floatstr (f : pyfloat) : pystr :=
  match f with
  | FNaN => u "NaN"
  | FInf => u "Infinity"
  | FNegInf => u "-Infinity"
  | FFinite repr => repr
  end.

Definition item_separator : pystr := u ",".
Definition key_separator : pystr := u ": ".

Definition not_serializable (cls : pystr) : Exc.t :=
  Exc.Build Exc.TypeError
    (u "Object of type " ++ cls ++ u " is not JSON serializable").

Section Encoder.

(** [_indent]: the number of spaces per level. *)
Variable indent : nat.

Variable interp : Interpreter.

(** [int.__repr__], which refuses an [int] of more digits than the limit. *)
Definition intstr (z : Z) : Result pystr :=
  if ((0 <? int_max_str_digits interp)
      && (int_max_str_digits interp <? ndigits z))%nat
  then Raise (digits_error (int_max_str_digits interp))
  else Ok (decimal z).

Definition newline_indent (level : nat) : pystr :=
  nl ++ repeat 32%N (indent * level).

Open Scope result_scope.

Section Containers.

(** The encoder of the elements, [_iterencode] itself once the knot is
    tied. *)
Variable iterencode : pyvalue -> nat -> Result (list pystr).

(** The [for value in lst] loop of [_iterencode_list]. *)
Fixpoint list_loop (level : nat) (lst : list pyvalue) (first : bool)
  : Result (list pystr) :=
  match lst with
  | [] => Ok []
  | value :: lst' =>
      let buf :=
        if first then u "[" ++ newline_indent level
        else item_separator ++ newline_indent level in
      chunks <- iterencode value level ;;
      rest <- list_loop level lst' false ;;
      Ok (buf :: chunks ++ rest)
  end.

(** Each container is encoded by a generator of its own, one frame deeper
    than the one of the container around it. *)
Definition iterencode_list (lst : list pyvalue) (level : nat)
  : Result (list pystr) :=
  if (max_nesting interp <=? level)%nat then Raise recursion_error else
  match lst with
  | [] => Ok [u "[]"]
  | _ =>
      let level := S level in
      chunks <- list_loop level lst true ;;
      let level := pred level in
      Ok (chunks ++ [newline_indent level; u "]"])
  end.

(** The [for key, value in items] loop of [_iterencode_dict]; the items come
    in the order of the dict, since [sort_keys] is off. *)
Fixpoint dict_loop (level : nat) (items : list (pystr * pyvalue))
    (first : bool) : Result (list pystr) :=
  match items with
  | [] => Ok []
  | (key, value) :: items' =>
      let buf :=
        if first then [] else [item_separator ++ newline_indent level] in
      chunks <- iterencode value level ;;
      rest <- dict_loop level items' false ;;
      Ok (buf ++ encode_basestring_ascii key :: key_separator
            :: chunks ++ rest)
  end.

Definition iterencode_dict (dct : list (pystr * pyvalue)) (level : nat)
  : Result (list pystr) :=
  if (max_nesting interp <=? level)%nat then Raise recursion_error else
  match dct with
  | [] => Ok [u "{}"]
  | _ =>
      let level := S level in
      chunks <- dict_loop level dct true ;;
      let level := pred level in
      Ok (u "{" :: newline_indent (S level) :: chunks
            ++ [newline_indent level; u "}"])
  end.

End Containers.

(** [_iterencode] of [json.encoder._make_iterencode]: the chunks yielded for
    [o] at [_current_indent_level]. *)
Fixpoint iterencode (o : pyvalue) (level : nat) {struct o}
  : Result (list pystr) :=
  match o with
  | PyStr s => Ok [encode_basestring_ascii s]
  | PyNone => Ok [u "null"]
  | PyBool true => Ok [u "true"]
  | PyBool false => Ok [u "false"]
  | PyInt z => text <- intstr z ;; Ok [text]
  | PyFloat f => Ok [floatstr f]
  | PyList lst => iterencode_list iterencode lst level
  | PyDict dct => iterencode_dict iterencode dct level
  | PyObject cls => Raise (not_serializable cls)
  end.

(** [JSONEncoder.encode]: [''.join(chunks)] *)
Definition encode (o : pyvalue) : Result pystr :=
  chunks <- iterencode o 0 ;;
  Ok (List.concat chunks).

End Encoder.

(** [json.dumps(obj, indent=indent)], under the limits of the interpreter
    that runs it. *)
Definition dumps (interp : Interpreter) (obj : pyvalue) (indent : nat)
  : Result pystr :=
  encode indent interp obj.

End json.

(** ** The collaborators: HTTP client and standard output *)

Module requests.

Inductive Method := GET | HEAD | POST | PUT | DELETE.

(** What [requests.get(url, headers=..., timeout=...)] hands to the client. *)
Record Request := {
  method : Method;
  req_url : pystr;
  req_headers : list (pystr * pystr);
  req_timeout : Z
}.

(** The response object, as far as the script can observe it: the status
    line and the outcome of calling [response.json()], which returns the
    decoded body or raises the decoder's error. *)
Record Response := {
  status_code : Z;
  json : Result pyvalue
}.

End requests.

(** Everything outside the script that a run could depend on.  [client n rq]
    is what the HTTP client does with the request [rq] when [n] requests
    were already made.  [stdout written text] tells how the call
    [print(text)] ends after the items [written] were printed: [None] when
    it returns, and otherwise the exception it raises (a refused write, a
    character the encoding of standard output cannot encode).  Standard
    output is the stream the interpreter has set up at startup, from the
    file it is attached to and from the environment (PYTHONIOENCODING, the
    locale).  [interp] holds the limits of the interpreter. *)
Record World := {
  argv : list pystr;
  environ : list (pystr * pystr);
  files : list (pystr * pystr);
  client : nat -> requests.Request -> Result requests.Response;
  stdout : list pystr -> pystr -> option Exc.t;
  interp : Interpreter
}.

(** What a run leaves behind: the requests sent and the items printed, each
    in order.  An item is a text whose [print] has returned; what a [print]
    that raises has left on the stream is not recorded. *)
Record Trace := {
  calls : list requests.Request;
  printed : list pystr
}.

Definition M (A : Type) : Type := Trace -> Result A * Trace.

Definition ret {A} (a : A) : M A := fun t => (Ok a, t).

Definition bind {A B} (m : M A) (k : A -> M B) : M B :=
  fun t =>
    match m t with
    | (Ok a, t') => k a t'
    | (Raise e, t') => (Raise e, t')
    end.

Definition lift {A} (r : Result A) : M A := fun t => (r, t).

Declare Scope py_scope.
Delimit Scope py_scope with py.
Notation "x <- c ;; k" := (bind c (fun x => k))
  (at level 61, c at next level, right associativity) : py_scope.

(** [try: body / except cls as e: handler e] *)
Definition try_except {A} (body : M A) (cls : Exc.class)
    (handler : Exc.t -> M A) : M A :=
  fun t =>
    match body t with
    | (Ok a, t') => (Ok a, t')
    | (Raise e, t') =>
        if Exc.isinstance e cls then handler e t' else (Raise e, t')
    end.

Section Script.

Variable w : World.

(** [requests.get(url, headers=headers, timeout=timeout)] *)
Definition requests_get (url : pystr) (headers : list (pystr * pystr))
    (timeout : Z) : M requests.Response :=
  fun t =>
    let rq := {| requests.method := requests.GET;
                 requests.req_url := url;
                 requests.req_headers := headers;
                 requests.req_timeout := timeout |} in
    (client w (length (calls t)) rq,
     {| calls := calls t ++ [rq]; printed := printed t |}).

(** [print(text)]: the call returns, and [text] is one more item, or it
    raises. *)
Definition print (text : pystr) : M unit :=
  fun t =>
    match stdout w (printed t) text with
    | None => (Ok tt, {| calls := calls t; printed := printed t ++ [text] |})
    | Some e => (Raise e, t)
    end.

Definition url : pystr :=
  u "https://channelsseller.site/api/user/udbcwicnovewwobvo/nfts".

Definition headers : list (pystr * pystr) :=
  [(u "X-Admin-Password", u "nova_admin_2024")].

Open Scope py_scope.

Definition script : M unit :=
  try_except
    (response <- requests_get url headers 10 ;;
     obj <- lift (requests.json response) ;;
     text <- lift (json.dumps (interp w) obj 2) ;;
     print text)
    Exc.Exception
    (fun e => print (Exc.str e)).

End Script.

Definition start : Trace := {| calls := []; printed := [] |}.

(** One invocation of the script in the world [w]. *)
Definition run (w : World) : Result unit * Trace := script w start.


(** The limits of an interpreter left at its defaults. *)
Definition defaults : Interpreter :=
  {| int_max_str_digits := 4300; max_nesting := 995 |}.

(** A client that answers every request with [c], under a standard output
    that accepts every write. *)
Definition mock (c : Result requests.Response) : World :=
  {| argv := []; environ := []; files := [];
     client := fun _ _ => c; stdout := fun _ _ => None;
     interp := defaults |}.

(** The request the script is expected to send. *)
Definition the_request : requests.Request :=
  {| requests.method := requests.GET;
     requests.req_url :=
       u "https://channelsseller.site/api/user/udbcwicnovewwobvo/nfts";
     requests.req_headers := [(u "X-Admin-Password", u "nova_admin_2024")];
     requests.req_timeout := 10 |}.

(** ** JSON values and their indented layout *)





(** The text the specification asks for, written independently of the
    encoder.  Scalars are JSON literals: a number in decimal, a string
    between double quotes with the two-character escapes of JSON for the
    quote, the backslash and the five named control characters, the other
    printable ASCII characters as they are, and every other character as
    the [\uXXXX] escapes of its UTF-16 code units.  The layout is written
    line by line rather than as a stream of chunks: a container opens on
    one line, closes on another, and holds its members in between, in their
    own order, each indented by two spaces more than the container and each
    but the last followed by a comma; a member of an object starts with its
    key. *)
Module Pretty.

Definition short_escapes : list (N * pystr) :=
  [(8%N, u "\b"); (9%N, u "\t"); (10%N, u "\n"); (12%N, u "\f");
   (13%N, u "\r"); (34%N, [92; 34]%N); (92%N, [92; 92]%N)].

Fixpoint lookup (c : N) (table : list (N * pystr)) : option pystr :=
  match table with
  | [] => None
  | (k, e) :: table' => if (c =? k)%N then Some e else lookup c table'
  end.

Definition hex_digit (d : N) : N :=
  nth (N.to_nat d) (u "0123456789abcdef") 0%N.

(** The four lowercase hexadecimal digits of a 16-bit code unit. *)
Definition hex16 (n : N) : pystr :=
  map hex_digit [n / 4096 mod 16; n / 256 mod 16; n / 16 mod 16; n mod 16]%N.

(** The UTF-16 code units of a code point: itself in the basic plane, a
    high and a low surrogate beyond. *)
Definition utf16 (c : N) : list N :=
  if (c <? 65536)%N then [c]
  else [55296 + (c - 65536) / 1024 mod 1024; 56320 + (c - 65536) mod 1024]%N.

Definition escaped (c : N) : pystr :=
  match lookup c short_escapes with
  | Some e => e
  | None =>
      if ((32 <=? c) && (c <=? 126))%N then [c]
      else flat_map (fun unit => [92; 117]%N ++ hex16 unit) (utf16 c)
  end.

Definition string_literal (s : pystr) : pystr :=
  [34%N] ++ flat_map escaped s ++ [34%N].

(** A number in decimal, with a minus sign when negative and no leading
    zero.  NaN and the infinities, which JSON does not have, are written as
    the JavaScript names that [json.dumps] uses for them. *)
Definition int_literal (z : Z) : pystr :=
  u (NilZero.string_of_int (Z.to_int z)).

Definition float_literal (f : pyfloat) : pystr :=
  match f with
  | FNaN => u "NaN"
  | FInf => u "Infinity"
  | FNegInf => u "-Infinity"
  | FFinite repr => repr
  end.

Definition on_first (f : pystr -> pystr) (ls : list pystr) : list pystr :=
  match ls with
  | [] => []
  | l :: ls' => f l :: ls'
  end.

Fixpoint on_last (f : pystr -> pystr) (ls : list pystr) : list pystr :=
  match ls with
  | [] => []
  | [l] => [f l]
  | l :: ls' => l :: on_last f ls'
  end.

Fixpoint commas (blocks : list (list pystr)) : list pystr :=
  match blocks with
  | [] => []
  | [b] => b
  | b :: rest => on_last (fun l => l ++ u ",") b ++ commas rest
  end.

Definition indented (ls : list pystr) : list pystr :=
  map (fun l => u "  " ++ l) ls.

Fixpoint layout (v : pyvalue) : list pystr :=
  match v with
  | PyNone => [u "null"]
  | PyBool true => [u "true"]
  | PyBool false => [u "false"]
  | PyInt z => [int_literal z]
  | PyFloat f => [float_literal f]
  | PyStr s => [string_literal s]
  | PyList [] => [u "[]"]
  | PyList lst => [u "["] ++ indented (commas (map layout lst)) ++ [u "]"]
  | PyDict [] => [u "{}"]
  | PyDict dct =>
      [u "{"]
      ++ indented
           (commas
              (map (fun kv =>
                      on_first
                        (fun l => string_literal (fst kv) ++ u ": " ++ l)
                        (layout (snd kv)))
                 dct))
      ++ [u "}"]
  | PyObject _ => []
  end.

Definition pretty (v : pyvalue) : pystr := join nl (layout v).

End Pretty.

(** ** Where the try block can raise *)

(** The four calls of the try block, in the order they are made. *)
Inductive Stage := AtRequest | AtParse | AtSerialize | AtPrint.

(** [raises_at w stage e]: in the world [w] the calls before [stage] return
    and the call at [stage] raises [e]. *)
Definition raises_at (w : World) (stage : Stage) (e : Exc.t) : Prop :=
  match stage with
  | AtRequest => client w 0%nat the_request = Raise e
  | AtParse =>
      exists response,
        client w 0%nat the_request = Ok response
        /\ requests.json response = Raise e
  | AtSerialize =>
      exists response obj,
        client w 0%nat the_request = Ok response
        /\ requests.json response = Ok obj
        /\ json.dumps (interp w) obj 2 = Raise e
  | AtPrint =>
      exists response obj text,
        client w 0%nat the_request = Ok response
        /\ requests.json response = Ok obj
        /\ json.dumps (interp w) obj 2 = Ok text
        /\ stdout w [] text = Some e
  end.

(** [returns w text]: every call of the try block up to [json.dumps] returns,
    and [text] is what is handed to [print]. *)
Definition returns (w : World) (text : pystr) : Prop :=
  exists response obj,
    client w 0%nat the_request = Ok response
    /\ requests.json response = Ok obj
    /\ json.dumps (interp w) obj 2 = Ok text.

(** The trace of a run that sent its request and printed [items]. *)
Definition sent_and_printed (items : list pystr) : Trace :=
  {| calls := [the_request]; printed := items |}.

(** How a run ends once the try block has raised [e] before anything was
    printed: the [except Exception] clause either takes [e] and prints it,
    or lets it through. *)
Definition handle (w : World) (e : Exc.t) : Result unit * Trace :=
  if Exc.isinstance e Exc.Exception
  then match stdout w [] (Exc.str e) with
       | None => (Ok tt, sent_and_printed [Exc.str e])
       | Some e' => (Raise e', sent_and_printed [])
       end
  else (Raise e, sent_and_printed []).

(** The world [w] with a client that answers [response] to every request. *)
Definition answering (w : World) (response : requests.Response) : World :=
  {| argv := argv w; environ := environ w; files := files w;
     client := fun _ _ => Ok response; stdout := stdout w;
     interp := interp w |}.

Definition with_status (response : requests.Response) (status : Z)
  : requests.Response :=
  {| requests.status_code := status;
     requests.json := requests.json response |}.

(** ** Sample worlds *)

Definition no_space : Exc.t :=
  Exc.Build Exc.OSError (u "[Errno 28] No space left on device").

(** A client that answers [c], under a standard output that refuses every
    text longer than [limit] characters. *)
Definition cramped (c : Result requests.Response) (limit : nat) : World :=
  {| argv := []; environ := []; files := [];
     client := fun _ _ => c;
     stdout := fun _ text =>
       if (limit <? List.length text)%nat then Some no_space else None;
     interp := defaults |}.

Definition gifts : pyvalue :=
  PyDict [(u "gifts", PyList [PyDict [(u "name", PyStr (u "Plush Pepe"));
                                      (u "id", PyInt 7)];
                              PyDict []]);
          (u "count", PyInt 2)].

Definition ok_response : requests.Response :=
  {| requests.status_code := 200; requests.json := Ok gifts |}.

Definition html_response : requests.Response :=
  {| requests.status_code := 502;
     requests.json :=
       Raise (Exc.Build Exc.requests_JSONDecodeError
                (u "Expecting value: line 1 column 1 (char 0)")) |}.



Definition read_timeout : Exc.t :=
  Exc.Build Exc.ReadTimeout
    (u "HTTPSConnectionPool(host='channelsseller.site', port=443): Read timed out. (read timeout=10)").

Definition interrupt : Exc.t := Exc.Build Exc.KeyboardInterrupt [].

(** ** Printable text *)




(** ** Reading JSON literals back *)

(** A reader of the number and string literals of JSON, to check the text
    the script prints against the value it stands for. *)
Module Read.




Definition hex (c : N) : option N :=
  if ((48 <=? c) && (c <=? 57))%N then Some (c - 48)%N
  else if ((97 <=? c) && (c <=? 102))%N then Some (c - 87)%N
  else if ((65 <=? c) && (c <=? 70))%N then Some (c - 55)%N
  else None.

(** The code unit that four hexadecimal digits stand for. *)
Definition unit (a b c d : N) : option N :=
  match hex a, hex b, hex c, hex d with
  | Some x, Some y, Some z, Some t => Some (4096 * x + 256 * y + 16 * z + t)%N
  | _, _, _, _ => None
  end.

(** The character that a letter after a backslash stands for. *)
Definition named (c : N) : option N :=
  if (c =? 34)%N then Some 34%N
  else if (c =? 92)%N then Some 92%N
  else if (c =? 47)%N then Some 47%N
  else if (c =? 98)%N then Some 8%N
  else if (c =? 102)%N then Some 12%N
  else if (c =? 110)%N then Some 10%N
  else if (c =? 114)%N then Some 13%N
  else if (c =? 116)%N then Some 9%N
  else None.

Definition is_high (n : N) : bool := ((55296 <=? n) && (n <=? 56319))%N.
Definition is_low (n : N) : bool := ((56320 <=? n) && (n <=? 57343))%N.

(** The low surrogate that an escape at the head of [s] stands for. *)
Definition low_escape (s : pystr) : option N :=
  match s with
  | b :: l :: h1 :: h2 :: h3 :: h4 :: _ =>
      if ((b =? 92) && (l =? 117))%N then
        match unit h1 h2 h3 h4 with
        | Some lo => if is_low lo then Some lo else None
        | None => None
        end
      else None
  | _ => None
  end.

(** The characters of a string literal after its opening quote, up to the
    closing quote, which has to end the text.  A high surrogate escape
    followed by a low surrogate escape stands for one character. *)
Fixpoint chars (s : pystr) : option pystr :=
  match s with
  | [] => None
  | c :: s1 =>
      if (c =? 34)%N then
        match s1 with
        | [] => Some []
        | _ => None
        end
      else if (c =? 92)%N then
        match s1 with
        | [] => None
        | e :: s2 =>
            if (e =? 117)%N then
              match s2 with
              | h1 :: h2 :: h3 :: h4 :: s3 =>
                  match unit h1 h2 h3 h4 with
                  | None => None
                  | Some n =>
                      match (if is_high n then low_escape s3 else None), s3 with
                      | Some lo, _ :: _ :: _ :: _ :: _ :: _ :: s4 =>
                          option_map
                            (cons (65536 + (n - 55296) * 1024 + (lo - 56320))%N)
                            (chars s4)
                      | _, _ => option_map (cons n) (chars s3)
                      end
                  end
              | _ => None
              end
            else
              match named e with
              | Some x => option_map (cons x) (chars s2)
              | None => None
              end
        end
      else if (c <? 32)%N then None
      else option_map (cons c) (chars s1)
  end.

(** A string literal: a quote, the characters, a quote. *)
Definition string (s : pystr) : option pystr :=
  match s with
  | [] => None
  | q :: s' => if (q =? 34)%N then chars s' else None
  end.

End Read.




(** * Properties *)

(** ** Induction on values *)


(** ** Joining lines *)










(** ** The scalars of the encoder are the JSON literals *)






(** ** The encoder produces the indented layout *)




Section Layout.

Variable interp : Interpreter.



End Layout.



(** ** Within the limits the encoder succeeds *)








(** ** The exception hierarchy *)

Lemma issubclass_refl (c : Exc.class) : Exc.issubclass c c = true.
Proof. destruct c; reflexivity. Qed.

(** The method resolution order agrees with the [class] statements: it
    starts with the class and contains the order of every direct base. *)
Lemma mro_bases (c b : Exc.class) :
  In b (Exc.bases c) -> incl (Exc.mro b) (Exc.mro c).
Proof.
  destruct c; simpl; intros Hb; repeat (destruct Hb as [ <- | Hb ]);
    try contradiction; intros x Hx; simpl in Hx |- *; tauto.
Qed.



(** ** How a run ends *)

(** The run, call by call. *)
Lemma run_unfold (w : World) :
  run w
  = match client w 0%nat the_request with
    | Raise e => handle w e
    | Ok response =>
        match requests.json response with
        | Raise e => handle w e
        | Ok obj =>
            match json.dumps (interp w) obj 2 with
            | Raise e => handle w e
            | Ok text =>
                match stdout w [] text with
                | Some e => handle w e
                | None => (Ok tt, sent_and_printed [text])
                end
            end
        end
    end.
Proof.
  unfold run, script, try_except, bind, requests_get, lift, print, handle.
  change (client w (List.length (calls start)) _)
    with (client w 0%nat the_request).
  destruct (client w 0%nat the_request) as [response | e]; cbn [calls printed].
  2: { destruct (Exc.isinstance e Exc.Exception); [ | reflexivity ].
       cbn [printed start]. now destruct (stdout w [] (Exc.str e)). }
  destruct (requests.json response) as [obj | e].
  2: { destruct (Exc.isinstance e Exc.Exception); [ | reflexivity ].
       cbn [printed start]. now destruct (stdout w [] (Exc.str e)). }
  destruct (json.dumps (interp w) obj 2) as [text | e].
  2: { destruct (Exc.isinstance e Exc.Exception); [ | reflexivity ].
       cbn [printed start]. now destruct (stdout w [] (Exc.str e)). }
  cbn [printed start app]. destruct (stdout w [] text) as [e | ].
  2: reflexivity.
  destruct (Exc.isinstance e Exc.Exception); [ | reflexivity ].
  cbn [printed]. now destruct (stdout w [] (Exc.str e)).
Qed.

Lemma run_returns (w : World) (text : pystr) :
  returns w text -> stdout w [] text = None ->
  run w = (Ok tt, sent_and_printed [text]).
Proof.
  intros (response & obj & Hget & Hjson & Hdumps) Hout.
  rewrite run_unfold, Hget, Hjson, Hdumps, Hout. reflexivity.
Qed.

Lemma run_raises (w : World) (stage : Stage) (e : Exc.t) :
  raises_at w stage e -> run w = handle w e.
Proof.
  intros Hraise. rewrite run_unfold. unfold handle.
  destruct stage; cbn [raises_at] in Hraise.
  - now rewrite Hraise.
  - destruct Hraise as (response & -> & ->). reflexivity.
  - destruct Hraise as (response & obj & -> & -> & ->). reflexivity.
  - destruct Hraise as (response & obj & text & -> & -> & -> & ->).
    reflexivity.
Qed.

(** Every run either hands a text to [print] or raises at one stage. *)
Lemma returns_or_raises (w : World) :
  (exists text, returns w text /\ stdout w [] text = None)
  \/ (exists stage e, raises_at w stage e).
Proof.
  destruct (client w 0%nat the_request) as [response | e] eqn:Hget.
  2: { right. now exists AtRequest, e. }
  destruct (requests.json response) as [obj | e] eqn:Hjson.
  2: { right. exists AtParse, e. now exists response. }
  destruct (json.dumps (interp w) obj 2) as [text | e] eqn:Hdumps.
  2: { right. exists AtSerialize, e. now exists response, obj. }
  destruct (stdout w [] text) as [e | ] eqn:Hout.
  - right. exists AtPrint, e. now exists response, obj, text.
  - left. exists text. split; [ | assumption ]. now exists response, obj.
Qed.

Lemma run_calls (w : World) : calls (snd (run w)) = [the_request].
Proof.
  rewrite run_unfold. unfold handle.
  repeat match goal with
         | |- context [match ?x with _ => _ end] => destruct x
         | |- context [if ?b then _ else _] => destruct b
         end; reflexivity.
Qed.



(** ** The claims *)









(** C4: every invocation sends one GET request to the fixed URL, with the
    single header X-Admin-Password carrying the hardcoded value and a
    timeout of 10 seconds; nothing in the request varies with the world. *)
Theorem request_is_fixed (w : World) :
  calls (snd (run w))
  = [{| requests.method := requests.GET;
        requests.req_url :=
          u "https://channelsseller.site/api/user/udbcwicnovewwobvo/nfts";
        requests.req_headers :=
          [(u "X-Admin-Password", u "nova_admin_2024")];
        requests.req_timeout := 10 |}].
Proof. exact (run_calls w). Qed.




(** C6: whatever the client does with the request, success or error, a run
    makes exactly one HTTP call and ends; no second request is ever sent. *)
Theorem exactly_one_call (w : World) :
  exists result items,
    run w = (result, {| calls := [the_request]; printed := items |})
    /\ List.length (calls (snd (run w))) = 1%nat.
Proof.
  exists (fst (run w)), (printed (snd (run w))).
  pose proof (run_calls w) as Hcalls.
  destruct (run w) as [result [sent items]]. cbn [fst snd calls printed] in *.
  subst sent. split; reflexivity.
Qed.

(** C7, as claimed: the output is a function of the client's outcome alone.
    Two runs with the same read timeout refute it: under a standard output
    that accepts the error text it is printed, under one that refuses it
    nothing is. *)
Lemma same_outcome_different_output :
  ~ (forall w1 w2,
       client w1 0%nat the_request = client w2 0%nat the_request ->
       printed (snd (run w1)) = printed (snd (run w2))).
Proof.
  intros Hall.
  specialize (Hall (mock (Raise read_timeout))
                (cramped (Raise read_timeout) 10) eq_refl).
  discriminate Hall.
Qed.

(** C7, amended: the script reads no command line, no environment variable
    and no file; two runs in which the client gives the same outcome to the
    request, standard output behaves the same and the interpreter has the
    same limits end the same way and print the same output, whatever the
    command line, the environment variables and the files of the two
    worlds are. *)
Theorem output_depends_on_client_outcome_only (w1 w2 : World) :
  client w1 0%nat the_request = client w2 0%nat the_request ->
  (forall written text, stdout w1 written text = stdout w2 written text) ->
  interp w1 = interp w2 ->
  run w1 = run w2.
Proof.
  intros Hclient Hout Hinterp. rewrite !run_unfold. unfold handle.
  rewrite Hclient, Hinterp.
  destruct (client w2 0%nat the_request) as [response | e].
  2: { now rewrite Hout. }
  destruct (requests.json response) as [obj | e].
  2: { now rewrite Hout. }
  destruct (json.dumps (interp w2) obj 2) as [text | e].
  2: { now rewrite Hout. }
  rewrite (Hout [] text). destruct (stdout w2 [] text) as [e | ].
  - now rewrite Hout.
  - reflexivity.
Qed.

Lemma output_depends_on_client_outcome_only_witness :
  run {| argv := [u "debug_gifts.py"; u "--verbose"];
         environ := [(u "ADMIN_PASSWORD", u "other")];
         files := [(u "config.json", u "{}")];
         client := fun _ _ => Ok ok_response;
         stdout := fun _ _ => None;
         interp := defaults |}
  = run (mock (Ok ok_response)).
Proof.
  apply output_depends_on_client_outcome_only; reflexivity.
Defined.

(** C8: the status code of the response is ignored: a response is handled
    exactly as the response with the same body and status 200 is, whatever
    its own status. *)
Theorem status_code_is_ignored (w : World) (response : requests.Response)
    (status : Z) :
  run (answering w (with_status response status))
  = run (answering w (with_status response 200)).
Proof. rewrite !run_unfold. reflexivity. Qed.




(** C10, as claimed: an error raised after the request is caught and
    printed rather than propagating.  A response that decodes well under a
    standard output that takes nothing refutes it: the [print] of the JSON
    text raises, the handler catches that error, its own [print] raises
    too, and that error leaves the script. *)
Lemma error_of_print_leaves_the_script :
  ~ (forall w stage e,
       stage <> AtRequest ->
       raises_at w stage e ->
       Exc.isinstance e Exc.Exception = true ->
       fst (run w) = Ok tt).
Proof.
  intros Hall.
  specialize (Hall (cramped (Ok ok_response) 0) AtPrint no_space).
  discriminate Hall; [ discriminate | | reflexivity ].
  exists ok_response, gifts, (Pretty.pretty gifts). repeat split.
Qed.

(** C10, amended: the try block encloses the decoding of the body, the
    serialization and the print of the result as well as the request, so an
    error (an instance of [Exception]) raised by any of them is caught by
    the same handler, whose [print] of the error then decides how the run
    ends: when standard output accepts the error text the run ends normally
    (and the error text is the one item printed when the error came from
    the decoding or the serialization), and when that write raises in turn,
    its error leaves the script. *)
Theorem error_after_the_request_is_caught (w : World) (stage : Stage)
    (e : Exc.t) :
  stage <> AtRequest ->
  raises_at w stage e ->
  Exc.isinstance e Exc.Exception = true ->
  (stdout w [] (Exc.str e) = None ->
   fst (run w) = Ok tt
   /\ (stage <> AtPrint -> printed (snd (run w)) = [Exc.str e]))
  /\ (forall e', stdout w [] (Exc.str e) = Some e' -> fst (run w) = Raise e').
Proof.
  intros _ Hraise Hinst.
  rewrite (run_raises w stage e Hraise). unfold handle. rewrite Hinst.
  split.
  - intros ->. split; reflexivity.
  - intros e' ->. reflexivity.
Qed.

Lemma error_after_the_request_is_caught_witness :
  fst (run (cramped (Ok ok_response) 40)) = Ok tt
  /\ printed (snd (run (mock (Ok html_response))))
     = [u "Expecting value: line 1 column 1 (char 0)"]
  /\ fst (run (cramped (Ok html_response) 10)) = Raise no_space.
Proof.
  split; [ | split ].
  - apply (error_after_the_request_is_caught (cramped (Ok ok_response) 40)
             AtPrint no_space).
    + discriminate.
    + exists ok_response, gifts, (Pretty.pretty gifts). repeat split.
    + reflexivity.
    + reflexivity.
  - apply (error_after_the_request_is_caught (mock (Ok html_response))
             AtParse
             (Exc.Build Exc.requests_JSONDecodeError
                (u "Expecting value: line 1 column 1 (char 0)"))).
    + discriminate.
    + now exists html_response.
    + reflexivity.
    + reflexivity.
    + discriminate.
  - apply (error_after_the_request_is_caught (cramped (Ok html_response) 10)
             AtParse
             (Exc.Build Exc.requests_JSONDecodeError
                (u "Expecting value: line 1 column 1 (char 0)"))).
    + discriminate.
    + now exists html_response.
    + reflexivity.
    + reflexivity.
Defined.

(** * Further properties of the script *)

(** ** How a run can end *)



(** The only two ways a run can end with an uncaught exception: a call of
    the try block raised an exception that is not an instance of
    [Exception], or the handler took the error and its own [print]
    raised. *)
Theorem uncaught_only_two_ways (w : World) (e' : Exc.t) :
  fst (run w) = Raise e' ->
  (exists stage, raises_at w stage e'
                 /\ Exc.isinstance e' Exc.Exception = false)
  \/ (exists stage e, raises_at w stage e
                      /\ Exc.isinstance e Exc.Exception = true
                      /\ stdout w [] (Exc.str e) = Some e').
Proof.
  destruct (returns_or_raises w)
    as [(text & Hret & Hacc) | (stage & e & Hraise)].
  - rewrite (run_returns w text Hret Hacc). discriminate.
  - rewrite (run_raises w stage e Hraise). unfold handle.
    destruct (Exc.isinstance e Exc.Exception) eqn:Hinst.
    + destruct (stdout w [] (Exc.str e)) as [e'' | ] eqn:Hout;
        [ | discriminate ].
      intros [= <-]. right. now exists stage, e.
    + intros [= <-]. left. now exists stage.
Qed.

Lemma uncaught_only_two_ways_witness :
  (exists stage, raises_at (mock (Raise interrupt)) stage interrupt
                 /\ Exc.isinstance interrupt Exc.Exception = false)
  \/ (exists stage e, raises_at (mock (Raise interrupt)) stage e
                      /\ Exc.isinstance e Exc.Exception = true
                      /\ stdout (mock (Raise interrupt)) [] (Exc.str e)
                         = Some interrupt).
Proof.
  apply (uncaught_only_two_ways (mock (Raise interrupt)) interrupt).
  reflexivity.
Defined.

(** The handler is not protected by any try block of its own: when the
    error of the try block is caught and the [print] of its text raises,
    that second error leaves the script uncaught. *)
Theorem error_in_the_handler_propagates (w : World) (stage : Stage)
    (e e' : Exc.t) :
  raises_at w stage e ->
  Exc.isinstance e Exc.Exception = true ->
  stdout w [] (Exc.str e) = Some e' ->
  fst (run w) = Raise e'.
Proof.
  intros Hraise Hinst Hout.
  rewrite (run_raises w stage e Hraise). unfold handle.
  now rewrite Hinst, Hout.
Qed.

Lemma error_in_the_handler_propagates_witness :
  fst (run (cramped (Raise read_timeout) 10)) = Raise no_space.
Proof.
  apply (error_in_the_handler_propagates (cramped (Raise read_timeout) 10)
           AtRequest read_timeout no_space); reflexivity.
Defined.

(** ** Errors of the requests library *)



(** ** The printed JSON text is printable ASCII *)















(** ** The printed literals read back as the values *)















